(** * Data Flow Analyzer: the request handlers of [src/main.py]

    The service has three POST handlers, each a thin layer over a library:
    [statsmodels] for the forecast, [numpy] (over a [pandas] frame) for the
    statistics.  The handlers are embedded as they are written.

    - Python [float] is IEEE binary64: the kernel's primitive [float].
    - [int] fields are unbounded integers: [Z].
    - A [dict] keyed by category is a [gmap string].
    - The forecast handler is a tree of library calls ([Py]); a run of it
      against a library threads the library's hidden state and records the
      calls made.  The forecasting library itself is a parameter. *)

From Stdlib Require Import ZArith Floats Uint63 String Sorted.
From stdpp Require Import base tactics option list strings gmap.

Local Open Scope Z_scope.

(** ** Python exceptions *)

(** What a library call raises.  The handlers observe two things of an
    exception [e]: whether [isinstance(e, Exception)] (the test of
    [except Exception]; [KeyboardInterrupt] and [SystemExit] fail it) and the
    text [str(e)]. *)
Record Raised : Type := mkRaised {
  isinstance_Exception : bool;
  str : string;
}.

(** What leaves a handler: [fastapi.HTTPException(status_code, detail)], which
    the framework turns into a response of that status with the body
    [{"detail": detail}], or any other exception, which the handler did not
    catch. *)
Inductive HandlerExc : Type :=
| HTTPException (status_code : Z) (detail : string)
| Unhandled (e : Raised).

(** ** Pydantic models of the forecast endpoint *)

Record ArimaRequest : Type := mkArimaRequest {
  values : list float;
  order : Z * Z * Z;
  steps : Z;
}.

Record ArimaForecast : Type := mkArimaForecast {
  forecast : list float;
  model_order : Z * Z * Z;
}.

(** The field defaults of [ArimaRequest]. *)
Definition order_default : Z * Z * Z := (1, 1, 1).
Definition steps_default : Z := 10.

(** [ArimaRequest(values=..., order=..., steps=...)], [order] and [steps]
    optional: an omitted field takes its default. *)
Definition ArimaRequest_init (values : list float)
    (order : option (Z * Z * Z)) (steps : option Z) : ArimaRequest :=
  {| values := values;
     order := default order_default order;
     steps := default steps_default steps |}.

(** ** Programs over the forecasting library *)

Module statsmodels.
Section Calls.
Context {Model Results : Type}.

(** The three calls of the handler's [try] block.  The library's objects are
    opaque to the handler: a [Model] is an [ARIMA] instance, a [Results] what
    [fit()] returns. *)
Inductive Call : Type :=
| ARIMA (endog : list float) (order : Z * Z * Z)
| ARIMA_fit (model : Model)
| ARIMAResults_forecast (model_fit : Results) (steps : Z).

(** What each call returns when it does not raise ([forecast] returns an
    array, read with [tolist()] as the list of its elements). *)
Definition Ret (c : Call) : Type :=
  match c with
  | ARIMA _ _ => Model
  | ARIMA_fit _ => Results
  | ARIMAResults_forecast _ _ => list float
  end.
End Calls.
Global Arguments Call : clear implicits.
End statsmodels.
Import statsmodels.

Section Programs.
Context {Model Results : Type}.
#[local] Abbreviation Call := (Call Model Results).

(** A computation that returns an [A], raises an [E], or calls the library
    and goes on with what the call returned or raised. *)
Inductive Py (E A : Type) : Type :=
| Return (a : A)
| Raise (e : E)
| Invoke (c : Call) (k : Raised + Ret c -> Py E A).
Global Arguments Return {E A} a.
Global Arguments Raise {E A} e.
Global Arguments Invoke {E A} c k.

Fixpoint bind {E A B} (p : Py E A) (f : A -> Py E B) : Py E B :=
  match p with
  | Return a => f a
  | Raise e => Raise e
  | Invoke c k => Invoke c (fun r => bind (k r) f)
  end.

(** A library call as a statement: what it raises propagates. *)
Definition call (c : Call) : Py Raised (Ret c) :=
  Invoke c (fun r => match r with inl e => Raise e | inr v => Return v end).

(** [try: body] / [except Exception as e: handler e].  An exception that is
    not an instance of [Exception] passes through. *)
Fixpoint try_except_Exception {A} (body : Py Raised A)
    (handler : Raised -> Py HandlerExc A) : Py HandlerExc A :=
  match body with
  | Return a => Return a
  | Raise e => if isinstance_Exception e then handler e else Raise (Unhandled e)
  | Invoke c k => Invoke c (fun r => try_except_Exception (k r) handler)
  end.

(** *** Running a program *)

(** A library: each call, from the hidden state [W] of the library and the
    process, returns or raises and leaves a new state. *)
Definition Library (W : Type) : Type :=
  forall c : Call, W -> (Raised + Ret c) * W.

(** The outcome of a run: what the program returned or raised, the final
    state, and the calls made, in order. *)
Record Run (W E A : Type) : Type := mkRun {
  result : E + A;
  world : W;
  calls : list Call;
}.
Global Arguments mkRun {W E A} result world calls.
Global Arguments result {W E A} r.
Global Arguments world {W E A} r.
Global Arguments calls {W E A} r.

Fixpoint run {W E A} (lib : Library W) (p : Py E A) (w : W) : Run W E A :=
  match p with
  | Return a => mkRun (inr a) w []
  | Raise e => mkRun (inl e) w []
  | Invoke c k =>
      let '(r, w1) := lib c w in
      let r' := run lib (k r) w1 in
      mkRun (result r') (world r') (c :: calls r')
  end.

(** ** The forecast handler *)

(** The body of the [try] block. *)
Definition forecast_arima_try (request : ArimaRequest)
    : Py Raised ArimaForecast :=
  bind (call (ARIMA (values request) (order request))) (fun model =>
  bind (call (ARIMA_fit model)) (fun model_fit =>
  bind (call (ARIMAResults_forecast model_fit (steps request))) (fun forecast =>
  Return {| forecast := forecast; model_order := order request |}))).

Definition forecast_arima (request : ArimaRequest)
    : Py HandlerExc ArimaForecast :=
  if decide (length (values request) < 10)%nat then
    Raise (HTTPException 400 "At least 10 values are required for ARIMA.")
  else
    try_except_Exception (forecast_arima_try request) (fun e =>
      Raise (HTTPException 500 ("Error in ARIMA model: " +:+ str e))).

(** What the [except] clause makes of an exception of the [try] block. *)
Definition excepted (e : Raised) : HandlerExc :=
  if isinstance_Exception e
  then HTTPException 500 ("Error in ARIMA model: " +:+ str e)
  else Unhandled e.

(** The endpoint on a request body in which [order] and [steps] may be
    omitted. *)
Definition forecast_arima_endpoint (values : list float)
    (order : option (Z * Z * Z)) (steps : option Z)
    : Py HandlerExc ArimaForecast :=
  forecast_arima (ArimaRequest_init values order steps).

(** *** Properties of libraries *)

(** The try block raises [e] on [request]: one of its three calls does, the
    calls before it having returned. *)
Inductive try_raises {W} (lib : Library W) (request : ArimaRequest) (w : W)
    : Raised -> W -> Prop :=
| ARIMA_raises e w1 :
    lib (ARIMA (values request) (order request)) w = (inl e, w1) ->
    try_raises lib request w e w1
| fit_raises model w1 e w2 :
    lib (ARIMA (values request) (order request)) w = (inr model, w1) ->
    lib (ARIMA_fit model) w1 = (inl e, w2) ->
    try_raises lib request w e w2
| forecast_raises model w1 model_fit w2 e w3 :
    lib (ARIMA (values request) (order request)) w = (inr model, w1) ->
    lib (ARIMA_fit model) w1 = (inr model_fit, w2) ->
    lib (ARIMAResults_forecast model_fit (steps request)) w2 = (inl e, w3) ->
    try_raises lib request w e w3.

(** [forecast(steps=n)], when it returns, returns [n] points. *)
Definition forecast_returns_steps {W} (lib : Library W) : Prop :=
  forall model_fit n w xs w',
    lib (ARIMAResults_forecast model_fit n) w = (inr xs, w') ->
    Z.of_nat (length xs) = n.

End Programs.
Global Arguments Py : clear implicits.
Global Arguments Library : clear implicits.

(** *** A small library to run the handler on

    A stand-in for the estimator in the examples: a persistence forecast that
    repeats the last observation.  It rejects a negative order and a horizon
    below one with a [ValueError]; its hidden state counts the calls made. *)
Module persistence.
Definition ValueError (msg : string) : Raised :=
  {| isinstance_Exception := true; str := msg |}.

Definition lib : Library (list float) (list float) nat := fun c w =>
  match c with
  | ARIMA endog (p, d, q) =>
      if decide (p < 0 \/ d < 0 \/ q < 0)
      then (inl (ValueError "Cannot specify negative orders."), S w)
      else (inr endog, S w)
  | ARIMA_fit model => (inr model, S w)
  | ARIMAResults_forecast model_fit n =>
      if decide (n < 1)
      then (inl (ValueError "Prediction must have `end` after `start`."), S w)
      else (inr (replicate (Z.to_nat n) (List.last model_fit 0%float)), S w)
  end.
End persistence.

(** Requests to run it on: the series of the test suite (rounded to
    quarters, so that every value is a binary64 number), a series that is too
    short, a request with a negative order, and one with a negative horizon. *)
Module Examples.
Definition series : list float :=
  [10.5; 12.25; 15.75; 14.25; 16.75; 18.5; 18; 20; 22.5; 21.75; 23.5; 25]%float.

Definition request : ArimaRequest :=
  {| values := series; order := (2, 1, 3); steps := 5 |}.

Definition response : ArimaForecast :=
  {| forecast := [25; 25; 25; 25; 25]%float; model_order := (2, 1, 3) |}.

Definition short_request : ArimaRequest :=
  {| values := [3.25; 2; 6.5; 3]%float; order := (1, 1, 1); steps := 5 |}.

Definition negative_request : ArimaRequest :=
  {| values := series; order := (-1, 1, 1); steps := 0 |}.

Definition no_horizon_request : ArimaRequest :=
  {| values := series; order := (2, 1, 3); steps := -3 |}.
End Examples.

(** ** Arrays and their reductions *)

(** numpy and pandas are libraries, not part of [src/]: their reductions are
    written out here as the libraries compute them, over binary64. *)
Module np.
(** What the handlers reduce: [np.array(values)], or a column of the frame. *)
Inductive array_like : Type :=
| ndarray (a : list float)
| Series (a : list float).

Definition array (values : list float) : array_like := ndarray values.

Definition tolist (a : array_like) : list float :=
  match a with ndarray l | Series l => l end.

(** [len(a)] *)
Definition len (a : array_like) : nat := length (tolist a).

(** A count as a float, for the divisions. *)
Definition of_count (n : nat) : float :=
  PrimFloat.of_uint63 (Uint63.of_Z (Z.of_nat n)).

(** *** Pairwise summation

    numpy adds a float array up in blocks: fewer than 8 elements one after
    the other; up to 128 elements in 8 accumulators that take every eighth
    element each and are added up as a tree, the last [n mod 8] elements one
    after the other onto that; a longer array as the sum of the sums of its
    two parts, the first of a length that is a multiple of 8. *)

Definition sequential_sum (res : float) (l : list float) : float :=
  foldl PrimFloat.add res l.

Fixpoint unrolled_sum (r0 r1 r2 r3 r4 r5 r6 r7 : float) (l : list float)
    : float :=
  match l with
  | a0 :: a1 :: a2 :: a3 :: a4 :: a5 :: a6 :: a7 :: l' =>
      unrolled_sum (r0 + a0) (r1 + a1) (r2 + a2) (r3 + a3)
                   (r4 + a4) (r5 + a5) (r6 + a6) (r7 + a7) l'
  | _ =>
      sequential_sum (((r0 + r1) + (r2 + r3)) + ((r4 + r5) + (r6 + r7))) l
  end%float.

Definition block_sum (l : list float) : float :=
  match l with
  | a0 :: a1 :: a2 :: a3 :: a4 :: a5 :: a6 :: a7 :: l' =>
      unrolled_sum a0 a1 a2 a3 a4 a5 a6 a7 l'
  | _ => sequential_sum PrimFloat.neg_zero l
  end.

Definition PW_BLOCKSIZE : nat := 128.

(** The recursion halves the array: [fuel] bounds its depth, and the length
    of the array is more than enough of it. *)
Fixpoint pairwise_sum_fuel (fuel : nat) (l : list float) : float :=
  let n := length l in
  if (n <=? PW_BLOCKSIZE)%nat then block_sum l
  else
    match fuel with
    | O => block_sum l
    | S fuel' =>
        let n2 := (n / 2)%nat in
        let n2 := (n2 - n2 mod 8)%nat in
        (pairwise_sum_fuel fuel' (take n2 l)
         + pairwise_sum_fuel fuel' (drop n2 l))%float
    end.

Definition pairwise_sum (l : list float) : float :=
  pairwise_sum_fuel (length l) l.

(** [np.add.reduce]: 0.0 for the empty array; otherwise the pairwise sum,
    added to the initial value -0.0. *)
Definition add_reduce (l : list float) : float :=
  match l with
  | [] => 0%float
  | _ :: _ => (PrimFloat.neg_zero + pairwise_sum l)%float
  end.

(** *** Reductions of an array *)

Definition nd_mean (l : list float) : float :=
  (add_reduce l / of_count (length l))%float.

(** The sum of the squared deviations from the mean. *)
Definition sq_deviations (l : list float) : float :=
  let m := nd_mean l in
  add_reduce (map (fun x => ((x - m) * (x - m))%float) l).

(** Modelled from the spec: [np.std] is numpy's, not part of [src/].  The
    glossary's "standard deviation computed with divisor equal to sample count
    (not count-1)", with numpy's parameter [ddof] for the choice: the divisor
    is [N - ddof], and [ddof] is 0 when the caller does not pass it. *)
Definition nd_std (l : list float) (ddof : nat) : float :=
  PrimFloat.sqrt (sq_deviations l / of_count (length l - ddof))%float.

Definition ddof_default : nat := 0.

(** Sorting, for the median. *)
Fixpoint insert_sorted (x : float) (l : list float) : list float :=
  match l with
  | [] => [x]
  | y :: l' => if PrimFloat.leb x y then x :: l else y :: insert_sorted x l'
  end.

Definition sort (l : list float) : list float := foldr insert_sorted [] l.

(** The middle of a sorted array: one element, or two when the length is
    even ([part[index-1:index+1]], [index = n // 2]). *)
Definition middle (s : list float) : list float :=
  let n := length s in
  let index := (n / 2)%nat in
  if Nat.even n then take 2 (drop (index - 1) s) else take 1 (drop index s).

(** [np.median] of an array: the mean of the middle, [nan] as soon as an
    element is. *)
Definition nd_median (l : list float) : float :=
  if existsb PrimFloat.is_nan l then PrimFloat.nan
  else nd_mean (middle (sort l)).

(** *** Reductions of a [Series]

    A [Series] reduces over its valid entries ([skipna=True]): the entries
    that are [nan] are not counted, and are replaced by 0.0, in their
    places, in the arrays that are added up. *)

Definition dropna (l : list float) : list float :=
  List.filter (fun x => negb (PrimFloat.is_nan x)) l.

(** The number of valid entries. *)
Definition count_valid (l : list float) : nat := length (dropna l).

Definition fillna0 (l : list float) : list float :=
  map (fun x => if PrimFloat.is_nan x then 0%float else x) l.

(** [Series.sum()] *)
Definition Series_sum (l : list float) : float := add_reduce (fillna0 l).

(** [Series.mean()] *)
Definition Series_mean (l : list float) : float :=
  let count := count_valid l in
  if (count =? 0)%nat then PrimFloat.nan
  else (Series_sum l / of_count count)%float.

(** The squared deviations of the valid entries from [avg]. *)
Definition sq_deviations_valid (avg : float) (l : list float) : list float :=
  map (fun x => if PrimFloat.is_nan x then 0%float
                else ((avg - x) * (avg - x))%float) l.

(** [Series.std(ddof=...)]: the two-pass variance of the valid entries,
    [nan] when there are no more of them than [ddof]. *)
Definition Series_std (l : list float) (ddof : nat) : float :=
  let count := count_valid l in
  if (count <=? ddof)%nat then PrimFloat.nan
  else
    let avg := (add_reduce (fillna0 l) / of_count count)%float in
    PrimFloat.sqrt
      (add_reduce (sq_deviations_valid avg l) / of_count (count - ddof))%float.

(** [np.mean(a)], [np.sum(a)] and [np.std(a)] on a [Series] are the
    [Series]' own methods, [np.std] passing its [ddof] on; [np.median]
    reads any argument as an array. *)
Definition mean (a : array_like) : float :=
  match a with
  | ndarray l => nd_mean l
  | Series l => Series_mean l
  end.

Definition median (a : array_like) : float := nd_median (tolist a).

Definition std_ddof (a : array_like) (ddof : nat) : float :=
  match a with
  | ndarray l => nd_std l ddof
  | Series l => Series_std l ddof
  end.

(** [np.std(a)], as the handlers call it. *)
Definition std (a : array_like) : float := std_ddof a ddof_default.

Definition sum (a : array_like) : float :=
  match a with
  | ndarray l => add_reduce l
  | Series l => Series_sum l
  end.
End np.



(** ** The statistics handlers *)

Module DataItem.
Record t : Type := mk {
  name : string;
  value : float;
  category : string;
}.
End DataItem.

Module DataStats.
Record t : Type := mk {
  mean : float;
  median : float;
  std : float;
  count : Z;
}.
End DataStats.

Definition calculate_stats (values : list float) : DataStats.t :=
  let arr := np.array values in
  {| DataStats.mean := np.mean arr;
     DataStats.median := np.median arr;
     DataStats.std := np.std arr;
     DataStats.count := Z.of_nat (np.len arr) |}.

(** The value of [results[category]] in [analyze_data]. *)
Module CategoryStats.
Record t : Type := mk {
  mean : float;
  median : float;
  std : float;
  count : Z;
  sum : float;
}.
End CategoryStats.

Module pd.
(** [Series.unique()]: the distinct values, in order of first appearance. *)
Fixpoint unique_from (seen : list string) (l : list string) : list string :=
  match l with
  | [] => []
  | x :: l' =>
      if decide (x ∈ seen) then unique_from seen l'
      else x :: unique_from (x :: seen) l'
  end.

Definition unique (l : list string) : list string := unique_from [] l.
End pd.

(** [df[df["category"] == category]["value"]] *)
Definition category_data (df : list DataItem.t) (category : string)
    : np.array_like :=
  np.Series (map DataItem.value
    (List.filter (fun item => bool_decide (DataItem.category item = category)) df)).

Definition category_stats (category_data : np.array_like) : CategoryStats.t :=
  {| CategoryStats.mean := np.mean category_data;
     CategoryStats.median := np.median category_data;
     CategoryStats.std := np.std category_data;
     CategoryStats.count := Z.of_nat (np.len category_data);
     CategoryStats.sum := np.sum category_data |}.

(** The response [{"analysis": results}]. *)
Record Analysis : Type := mkAnalysis {
  analysis : gmap string CategoryStats.t;
}.

(** [df["category"]] on the frame of an empty list, which has no columns. *)
Definition KeyError_category : Raised :=
  {| isinstance_Exception := true; str := "'category'" |}.

Definition analyze_data (items : list DataItem.t) : Raised + Analysis :=
  let df := items in
  match df with
  | [] => inl KeyError_category
  | _ :: _ =>
      let results :=
        foldl (fun results category =>
                 <[category := category_stats (category_data df category)]> results)
              ∅ (pd.unique (map DataItem.category df)) in
      inr {| analysis := results |}
  end.

(** The inputs of the test suite. *)
Module StatsExamples.
Definition values : list float := [1; 2; 3; 4; 5]%float.

Definition items : list DataItem.t :=
  [ DataItem.mk "item1" 10 "A"; DataItem.mk "item2" 20 "A";
    DataItem.mk "item3" 15 "B" ].
End StatsExamples.

(** ** More to run the handlers on *)

(** A library whose [fit()] is interrupted: what it raises is not an instance
    of [Exception]. *)
Module interrupted.
Definition KeyboardInterrupt : Raised :=
  {| isinstance_Exception := false; str := "" |}.

Definition lib : Library (list float) (list float) nat := fun c w =>
  match c with
  | ARIMA endog _ => (inr endog, S w)
  | ARIMA_fit _ => (inl KeyboardInterrupt, S w)
  | ARIMAResults_forecast model_fit n =>
      (inr (replicate (Z.to_nat n) (List.last model_fit 0%float)), S w)
  end.
End interrupted.

Module MoreExamples.
(** The items of the test suite in another order. *)
Definition items_reordered : list DataItem.t :=
  [ DataItem.mk "item3" 15 "B"; DataItem.mk "item1" 10 "A";
    DataItem.mk "item2" 20 "A" ].

(** The same items of category A among other items of category B. *)
Definition items_other_B : list DataItem.t :=
  [ DataItem.mk "item4" 7 "B"; DataItem.mk "item1" 10 "A";
    DataItem.mk "item5" 8 "B"; DataItem.mk "item2" 20 "A" ].

Definition items_A : list DataItem.t :=
  [ DataItem.mk "item1" 10 "A"; DataItem.mk "item2" 20 "A" ].

(** The analysis of a list that has one. *)
Definition analysis_of (items : list DataItem.t) : Analysis :=
  match analyze_data items with
  | inr a => a
  | inl _ => {| analysis := ∅ |}
  end.



(** Nine values whose sum depends on the order of the additions: 2^53 and
    eight times 1. *)
Definition long_values : list float :=
  [9007199254740992; 1; 1; 1; 1; 1; 1; 1; 1]%float.

(** The binary64 number that is written 0.1. *)
Definition tenth : float := 0x1.999999999999ap-4%float.
End MoreExamples.


(** The sum of the counts of an analysis. *)
Definition total_count (results : gmap string CategoryStats.t) : Z :=
  map_fold (fun _ st n => CategoryStats.count st + n) 0 results.

(** * Properties *)

(** ** Running programs *)

Section RunLemmas.
Context {Model Results W : Type} (lib : Library Model Results W).

Lemma run_eta {E A} (r : Run (Model:=Model) (Results:=Results) W E A) :
  mkRun (result r) (world r) (calls r) = r.
Proof. destruct r; reflexivity. Qed.

(** The [try] statement runs its body; the handler runs, from the state the
    body left, exactly when the body raised an instance of [Exception]. *)
Lemma run_try_except_Exception {A} (body : Py Model Results Raised A) handler w :
  run lib (try_except_Exception body handler) w =
    let r := run lib body w in
    match result r with
    | inr a => mkRun (inr a) (world r) (calls r)
    | inl e =>
        if isinstance_Exception e then
          let r' := run lib (handler e) (world r) in
          mkRun (result r') (world r') (calls r ++ calls r')
        else mkRun (inl (Unhandled e)) (world r) (calls r)
    end.
Proof.
  revert w. induction body as [a | e | c k IH]; intros w; simpl.
  - reflexivity.
  - destruct (isinstance_Exception e); simpl; [apply eq_sym, run_eta | reflexivity].
  - destruct (lib c w) as [r w1]. simpl. rewrite IH. simpl.
    destruct (result (run lib (k r) w1)) as [e | a]; [| reflexivity].
    destruct (isinstance_Exception e); reflexivity.
Qed.

End RunLemmas.

(** ** The forecast handler *)

Section Forecast.
Context {Model Results W : Type} (lib : Library Model Results W).

(** A run of the handler on a request that passes the length check, call by
    call. *)
Lemma forecast_arima_run request w :
  (10 <= length (values request))%nat ->
  run lib (forecast_arima request) w =
    let c1 := ARIMA (values request) (order request) in
    match lib c1 w with
    | (inl e, w1) => mkRun (inl (excepted e)) w1 [c1]
    | (inr model, w1) =>
        let c2 := ARIMA_fit model in
        match lib c2 w1 with
        | (inl e, w2) => mkRun (inl (excepted e)) w2 [c1; c2]
        | (inr model_fit, w2) =>
            let c3 := ARIMAResults_forecast model_fit (steps request) in
            match lib c3 w2 with
            | (inl e, w3) => mkRun (inl (excepted e)) w3 [c1; c2; c3]
            | (inr xs, w3) =>
                mkRun (inr {| forecast := xs; model_order := order request |})
                      w3 [c1; c2; c3]
            end
        end
    end.
Proof.
  intros Hlen. unfold forecast_arima, excepted.
  destruct (decide (length (values request) < 10)%nat) as [Hlt | _]; [lia |].
  simpl.
  destruct (lib (ARIMA _ _) w) as [[e | model] w1]; simpl in *.
  { destruct (isinstance_Exception e); reflexivity. }
  destruct (lib (ARIMA_fit model) w1) as [[e | model_fit] w2]; simpl in *.
  { destruct (isinstance_Exception e); reflexivity. }
  destruct (lib (ARIMAResults_forecast _ _) w2) as [[e | xs] w3]; simpl in *.
  { destruct (isinstance_Exception e); reflexivity. }
  reflexivity.
Qed.

(** A successful run made the three calls, and its response carries the list
    the forecast call returned. *)
Lemma forecast_arima_success request w resp :
  result (run lib (forecast_arima request) w) = inr resp ->
  (10 <= length (values request))%nat /\
  exists model w1 model_fit w2 w3,
    lib (ARIMA (values request) (order request)) w = (inr model, w1) /\
    lib (ARIMA_fit model) w1 = (inr model_fit, w2) /\
    lib (ARIMAResults_forecast model_fit (steps request)) w2
      = (inr (forecast resp), w3) /\
    model_order resp = order request.
Proof.
  intros Hres.
  destruct (decide (length (values request) < 10)%nat) as [Hlt | Hge].
  { unfold forecast_arima in Hres.
    destruct (decide (length (values request) < 10)%nat); [| lia].
    discriminate Hres. }
  split; [lia |].
  revert Hres. rewrite forecast_arima_run by lia. simpl.
  destruct (lib (ARIMA _ _) w) as [[e | model] w1]; simpl in *;
    [discriminate |].
  destruct (lib (ARIMA_fit model) w1) as [[e | model_fit] w2] eqn:Hfit;
    simpl in *; [discriminate |].
  destruct (lib (ARIMAResults_forecast _ _) w2) as [[e | xs] w3] eqn:Hfc;
    simpl in *; [discriminate |].
  intros [= <-]. exists model, w1, model_fit, w2, w3. auto.
Qed.

(** The body of the [try] block raises what one of its calls raises. *)
Lemma try_raises_run request w e w' :
  try_raises lib request w e w' ->
  result (run lib (forecast_arima_try request) w) = inl e /\
  world (run lib (forecast_arima_try request) w) = w'.
Proof.
  unfold forecast_arima_try.
  inversion 1 as [? ? H1 | ? ? ? ? H1 H2 | ? ? ? ? ? ? H1 H2 H3]; subst; simpl.
  - rewrite H1. auto.
  - rewrite H1. simpl in *. rewrite H2. auto.
  - rewrite H1. simpl in *. rewrite H2. simpl in *. rewrite H3. auto.
Qed.

(** An exception of the [try] block leaves the handler as the [except] clause
    rewrites it. *)
Lemma forecast_arima_excepted request w e w' :
  (10 <= length (values request))%nat ->
  try_raises lib request w e w' ->
  result (run lib (forecast_arima request) w) = inl (excepted e) /\
  world (run lib (forecast_arima request) w) = w'.
Proof.
  intros Hlen [Hres Hw]%try_raises_run. unfold forecast_arima, excepted.
  destruct (decide (length (values request) < 10)%nat); [lia |].
  rewrite run_try_except_Exception. cbv zeta. rewrite Hres, Hw.
  destruct (isinstance_Exception e); auto.
Qed.
End Forecast.

(** The stand-in library keeps the contract of [forecast]. *)
Lemma persistence_forecast_returns_steps :
  forecast_returns_steps persistence.lib.
Proof.
  intros model_fit n w xs w'. simpl.
  destruct (decide (n < 1)) as [? | Hn]; intros [= <- <-].
  rewrite length_replicate. lia.
Qed.

(** C1: a request with fewer than ten values fails with the 400 exception and
    its exact detail, whatever the order and the steps; the handler is that
    exception and nothing else, so that against any library no call is made
    and the library's state is left as it was. *)
Theorem forecast_arima_too_short {Model Results W : Type}
    (lib : Library Model Results W) (vs : list float) (o : Z * Z * Z) (s : Z)
    (w : W) :
  (length vs < 10)%nat ->
  let request := {| values := vs; order := o; steps := s |} in
  forecast_arima (Model:=Model) (Results:=Results) request
    = Raise (HTTPException 400 "At least 10 values are required for ARIMA.") /\
  run lib (forecast_arima request) w
    = mkRun (inl (HTTPException 400 "At least 10 values are required for ARIMA."))
            w [].
Proof.
  intros Hlen request.
  assert (forecast_arima (Model:=Model) (Results:=Results) request
    = Raise (HTTPException 400 "At least 10 values are required for ARIMA."))
    as Heq.
  { unfold forecast_arima. subst request. simpl.
    destruct (decide (length vs < 10)%nat); [reflexivity | lia]. }
  split; [exact Heq |]. rewrite Heq. reflexivity.
Qed.

Lemma forecast_arima_too_short_witness :
  forecast_arima (Model:=list float) (Results:=list float) Examples.short_request
    = Raise (HTTPException 400 "At least 10 values are required for ARIMA.") /\
  run persistence.lib (forecast_arima Examples.short_request) 0%nat
    = mkRun (inl (HTTPException 400 "At least 10 values are required for ARIMA."))
            0%nat [].
Proof.
  apply (forecast_arima_too_short persistence.lib
           [3.25; 2; 6.5; 3]%float (1, 1, 1) 5 0%nat).
  simpl. lia.
Defined.

(** C2: when the handler succeeds, against a library whose [forecast(steps=n)]
    returns [n] points, the forecast of the response has exactly
    [request.steps] elements. *)
Theorem forecast_arima_length {Model Results W : Type}
    (lib : Library Model Results W) (request : ArimaRequest) (w : W)
    (resp : ArimaForecast) :
  forecast_returns_steps lib ->
  result (run lib (forecast_arima request) w) = inr resp ->
  Z.of_nat (length (forecast resp)) = steps request.
Proof.
  intros Hlib (_ & model & w1 & model_fit & w2 & w3 & _ & _ & Hfc & _)%forecast_arima_success.
  exact (Hlib _ _ _ _ _ Hfc).
Qed.

Lemma forecast_arima_length_witness :
  Z.of_nat (length (forecast Examples.response)) = 5.
Proof.
  exact (forecast_arima_length persistence.lib Examples.request 0%nat
           Examples.response persistence_forecast_returns_steps eq_refl).
Defined.

(** C3: when the handler succeeds, [model_order] of the response is the
    [order] of the request, unchanged. *)
Theorem forecast_arima_model_order {Model Results W : Type}
    (lib : Library Model Results W) (request : ArimaRequest) (w : W)
    (resp : ArimaForecast) :
  result (run lib (forecast_arima request) w) = inr resp ->
  model_order resp = order request.
Proof.
  intros (_ & model & w1 & model_fit & w2 & w3 & _ & _ & _ & Hmo)%forecast_arima_success.
  exact Hmo.
Qed.

Lemma forecast_arima_model_order_witness :
  model_order Examples.response = (2, 1, 3).
Proof.
  exact (forecast_arima_model_order persistence.lib Examples.request 0%nat
           Examples.response eq_refl).
Defined.

(** C4: on a request that passes the length check, when a call of the [try]
    block raises an error [e] (an instance of [Exception]), the handler fails
    with the 500 exception whose detail is ["Error in ARIMA model: "] followed
    by [str(e)], and returns no forecast. *)
Theorem forecast_arima_library_error {Model Results W : Type}
    (lib : Library Model Results W) (request : ArimaRequest) (w : W)
    (e : Raised) (w' : W) :
  (10 <= length (values request))%nat ->
  try_raises lib request w e w' ->
  isinstance_Exception e = true ->
  let r := run lib (forecast_arima request) w in
  result r = inl (HTTPException 500 ("Error in ARIMA model: " +:+ str e)) /\
  (forall resp, result r <> inr resp).
Proof.
  intros Hlen Hraises He r.
  destruct (forecast_arima_excepted lib request w e w' Hlen Hraises) as [Hres _].
  unfold excepted in Hres. rewrite He in Hres. subst r. rewrite Hres.
  split; [reflexivity | discriminate].
Qed.

Lemma forecast_arima_library_error_witness :
  let r := run persistence.lib (forecast_arima Examples.no_horizon_request) 0%nat in
  result r = inl (HTTPException 500
    "Error in ARIMA model: Prediction must have `end` after `start`.") /\
  (forall resp, result r <> inr resp).
Proof.
  apply (forecast_arima_library_error persistence.lib
           Examples.no_horizon_request 0%nat
           (persistence.ValueError "Prediction must have `end` after `start`.")
           3%nat).
  - simpl. lia.
  - apply (forecast_raises persistence.lib Examples.no_horizon_request 0%nat
             Examples.series 1%nat Examples.series 2%nat); reflexivity.
  - reflexivity.
Defined.

(** C6: a request that omits [order] is processed with the order (1, 1, 1),
    one that omits [steps] with 10 steps. *)
Theorem forecast_arima_defaults {Model Results : Type} (vs : list float)
    (o : Z * Z * Z) (s : Z) :
  order (ArimaRequest_init vs None (Some s)) = (1, 1, 1) /\
  steps (ArimaRequest_init vs (Some o) None) = 10 /\
  forecast_arima_endpoint (Model:=Model) (Results:=Results) vs None (Some s)
    = forecast_arima {| values := vs; order := (1, 1, 1); steps := s |} /\
  forecast_arima_endpoint (Model:=Model) (Results:=Results) vs (Some o) None
    = forecast_arima {| values := vs; order := o; steps := 10 |} /\
  forecast_arima_endpoint (Model:=Model) (Results:=Results) vs None None
    = forecast_arima {| values := vs; order := (1, 1, 1); steps := 10 |}.
Proof. repeat split. Qed.

(** C10: a request with at least ten values is never refused with a 400,
    whatever the signs of its order and of its steps: the handler hands the
    values and the order, as they are, to [ARIMA], hands [steps], as it is, to
    [forecast] if it gets that far, and an error of either surfaces as the 500
    exception with the detail ["Error in ARIMA model: " + str(e)]. *)
Theorem forecast_arima_only_checks_length {Model Results W : Type}
    (lib : Library Model Results W) (vs : list float) (o : Z * Z * Z) (s : Z)
    (w : W) :
  (10 <= length vs)%nat ->
  let request := {| values := vs; order := o; steps := s |} in
  let r := run lib (forecast_arima request) w in
  (exists k, forecast_arima (Model:=Model) (Results:=Results) request
               = Invoke (ARIMA vs o) k) /\
  (forall detail, result r <> inl (HTTPException 400 detail)) /\
  head (calls r) = Some (ARIMA vs o) /\
  (forall model_fit n, ARIMAResults_forecast model_fit n ∈ calls r -> n = s) /\
  (forall e w', try_raises lib request w e w' ->
     isinstance_Exception e = true ->
     result r = inl (HTTPException 500 ("Error in ARIMA model: " +:+ str e))).
Proof.
  intros Hlen request r.
  assert (Hrun := forecast_arima_run lib request w Hlen).
  fold r in Hrun. simpl in Hrun.
  split.
  { unfold forecast_arima. subst request. simpl.
    destruct (decide (length vs < 10)%nat); [lia |]. eexists. reflexivity. }
  split; [| split; [| split]].
  - intros detail. rewrite Hrun.
    destruct (lib (ARIMA vs o) w) as [[e | model] w1]; simpl in *.
    { unfold excepted. destruct (isinstance_Exception e); discriminate. }
    destruct (lib (ARIMA_fit model) w1) as [[e | model_fit] w2]; simpl in *.
    { unfold excepted. destruct (isinstance_Exception e); discriminate. }
    destruct (lib (ARIMAResults_forecast model_fit s) w2) as [[e | xs] w3];
      simpl; [| discriminate].
    unfold excepted. destruct (isinstance_Exception e); discriminate.
  - rewrite Hrun.
    destruct (lib (ARIMA vs o) w) as [[e | model] w1]; simpl in *;
      [reflexivity |].
    destruct (lib (ARIMA_fit model) w1) as [[e | model_fit] w2]; simpl in *;
      [reflexivity |].
    destruct (lib (ARIMAResults_forecast model_fit s) w2) as [[e | xs] w3];
      reflexivity.
  - intros mf n. rewrite Hrun.
    destruct (lib (ARIMA vs o) w) as [[e | model] w1]; simpl in *.
    { intros [=]%list_elem_of_singleton. }
    destruct (lib (ARIMA_fit model) w1) as [[e | model_fit] w2]; simpl in *.
    { rewrite !elem_of_cons, elem_of_nil. intros [[=] | [[=] | []]]. }
    destruct (lib (ARIMAResults_forecast model_fit s) w2) as [[e | xs] w3];
      simpl; rewrite !elem_of_cons, elem_of_nil;
      intros [[=] | [[=] | [[=] | []]]]; congruence.
  - intros e w' Hraises He.
    destruct (forecast_arima_excepted lib request w e w' Hlen Hraises) as [Hres _].
    unfold excepted in Hres. rewrite He in Hres. exact Hres.
Qed.

Lemma forecast_arima_only_checks_length_witness :
  let r := run persistence.lib (forecast_arima Examples.negative_request) 0%nat in
  (exists k, forecast_arima (Model:=list float) (Results:=list float)
               Examples.negative_request
               = Invoke (ARIMA Examples.series (-1, 1, 1)) k) /\
  (forall detail, result r <> inl (HTTPException 400 detail)) /\
  head (calls r) = Some (ARIMA Examples.series (-1, 1, 1)) /\
  (forall model_fit n, ARIMAResults_forecast model_fit n ∈ calls r -> n = 0) /\
  (forall e w', try_raises persistence.lib Examples.negative_request 0%nat e w' ->
     isinstance_Exception e = true ->
     result r = inl (HTTPException 500 ("Error in ARIMA model: " +:+ str e))).
Proof.
  apply (forecast_arima_only_checks_length persistence.lib
           Examples.series (-1, 1, 1) 0 0%nat).
  simpl. lia.
Defined.

(** ** The statistics handlers *)

Lemma elem_of_unique_from (seen l : list string) (x : string) :
  x ∈ pd.unique_from seen l <-> x ∈ l /\ x ∉ seen.
Proof.
  revert seen. induction l as [| y l IH]; intros seen; simpl.
  - rewrite elem_of_nil. tauto.
  - destruct (decide (y ∈ seen)) as [Hin | Hnin].
    + rewrite IH, elem_of_cons. split; [tauto |].
      intros [[-> | ?] ?]; [contradiction | tauto].
    + rewrite !elem_of_cons, IH, not_elem_of_cons.
      destruct (decide (x = y)) as [-> | ?]; tauto.
Qed.

Lemma elem_of_unique (l : list string) (x : string) : x ∈ pd.unique l <-> x ∈ l.
Proof.
  unfold pd.unique. rewrite elem_of_unique_from, elem_of_nil. tauto.
Qed.

Lemma NoDup_unique_from (seen l : list string) : NoDup (pd.unique_from seen l).
Proof.
  revert seen. induction l as [| y l IH]; intros seen; simpl.
  - constructor.
  - destruct (decide (y ∈ seen)); [apply IH |].
    constructor; [| apply IH].
    rewrite elem_of_unique_from, not_elem_of_cons. tauto.
Qed.

(** The loop [for k in l: results[k] = f(k)]. *)
Lemma lookup_foldl_insert {A} (f : string -> A) (l : list string)
    (m : gmap string A) (c : string) :
  foldl (fun results k => <[k := f k]> results) m l !! c
    = if decide (c ∈ l) then Some (f c) else m !! c.
Proof.
  revert m. induction l as [| k l IH]; intros m; simpl.
  - destruct (decide (c ∈ [])) as [Hin | _]; [| reflexivity].
    apply elem_of_nil in Hin. contradiction.
  - rewrite IH.
    destruct (decide (c ∈ l)) as [Hin | Hnin].
    + rewrite decide_True by (apply elem_of_cons; auto). reflexivity.
    + destruct (decide (c = k)) as [-> | Hne].
      * rewrite decide_True by (apply elem_of_cons; auto).
        apply lookup_insert_eq.
      * rewrite decide_False by (rewrite elem_of_cons; tauto).
        apply lookup_insert_ne. auto.
Qed.

Lemma filter_bool_decide {A} (P : A -> Prop) `{!forall x, Decision (P x)}
    (l : list A) :
  List.filter (fun x => bool_decide (P x)) l = filter P l.
Proof.
  induction l as [| x l IH]; simpl; [reflexivity |].
  rewrite filter_cons, IH.
  destruct (decide (P x)) as [HP | HP].
  - rewrite bool_decide_eq_true_2 by exact HP. reflexivity.
  - rewrite bool_decide_eq_false_2 by exact HP. reflexivity.
Qed.


(** The values of the items of a category, in the order of the request. *)
Lemma category_data_values (items : list DataItem.t) (c : string) :
  category_data items c
    = np.Series (DataItem.value <$>
                   filter (fun item => DataItem.category item = c) items).
Proof. unfold category_data. rewrite filter_bool_decide. reflexivity. Qed.

(** The loop over the distinct keys of a column. *)
Lemma lookup_foldl_insert_unique {A} (f : string -> A) (l : list string)
    (c : string) :
  foldl (fun results k => <[k := f k]> results) (∅ : gmap string A)
        (pd.unique l) !! c
    = if decide (c ∈ l) then Some (f c) else None.
Proof.
  rewrite lookup_foldl_insert, lookup_empty.
  destruct (decide (c ∈ pd.unique l)) as [Hin | Hnin];
    rewrite elem_of_unique in *.
  - rewrite decide_True by exact Hin. reflexivity.
  - rewrite decide_False by exact Hnin. reflexivity.
Qed.

(** The entries of the analysis: one for each category that occurs, holding
    the statistics of that category's column. *)
Lemma analyze_data_lookup (items : list DataItem.t) (a : Analysis) (c : string) :
  analyze_data items = inr a ->
  analysis a !! c
    = if decide (c ∈ DataItem.category <$> items)
      then Some (category_stats (category_data items c)) else None.
Proof.
  destruct items as [| item items]; [discriminate |].
  intros [= <-].
  exact (lookup_foldl_insert_unique
           (fun k => category_stats (category_data (item :: items) k))
           (DataItem.category <$> item :: items) c).
Qed.

Lemma analyze_data_dom (items : list DataItem.t) (a : Analysis) :
  analyze_data items = inr a ->
  dom (analysis a) = list_to_set (DataItem.category <$> items).
Proof.
  intros Ha. apply set_eq. intros c.
  rewrite elem_of_dom, elem_of_list_to_set, (analyze_data_lookup items a c Ha).
  destruct (decide (c ∈ DataItem.category <$> items)) as [Hin | Hnin].
  - split; [auto | eauto].
  - split; [intros [? [=]] | contradiction].
Qed.

(** The analysis has as many entries as there are distinct categories. *)
Lemma analyze_data_size (items : list DataItem.t) (a : Analysis) :
  analyze_data items = inr a ->
  size (analysis a) = length (pd.unique (DataItem.category <$> items)).
Proof.
  intros Ha.
  rewrite <- (size_dom (D:=gset string)), (analyze_data_dom items a Ha).
  rewrite <- (size_list_to_set (C:=gset string) (pd.unique _))
    by apply NoDup_unique_from.
  f_equal. apply set_eq. intros c.
  rewrite !elem_of_list_to_set, elem_of_unique. reflexivity.
Qed.

(** The handlers on the inputs of the test suite, and on the empty list. *)
Example forecast_arima_request :
  run persistence.lib (forecast_arima Examples.request) 0%nat
    = mkRun (inr Examples.response) 3%nat
        [ ARIMA Examples.series (2, 1, 3); ARIMA_fit Examples.series;
          ARIMAResults_forecast Examples.series 5 ].
Proof. reflexivity. Qed.

Example calculate_stats_values :
  calculate_stats StatsExamples.values
    = {| DataStats.mean := 3; DataStats.median := 3;
         DataStats.std := PrimFloat.sqrt 2; DataStats.count := 5 |}.
Proof. vm_compute. reflexivity. Qed.

Example median_of_four : np.median (np.array [4; 1; 3; 2]%float) = 2.5%float.
Proof. vm_compute. reflexivity. Qed.

Example analyze_data_empty : analyze_data [] = inl KeyError_category.
Proof. reflexivity. Qed.

(** C7: the count of the ungrouped statistics is the length of the input; on
    [1, 2, 3, 4, 5] the mean is 3.0, the median 3.0 and the count 5. *)
Theorem calculate_stats_count :
  (forall values : list float,
     DataStats.count (calculate_stats values) = Z.of_nat (length values)) /\
  DataStats.mean (calculate_stats StatsExamples.values) = 3%float /\
  DataStats.median (calculate_stats StatsExamples.values) = 3%float /\
  DataStats.count (calculate_stats StatsExamples.values) = 5.
Proof.
  split; [reflexivity |]. vm_compute. auto.
Qed.

(** ** Binary64 arithmetic *)

Section SpecFloatFacts.
Variables prec emax : Z.






End SpecFloatFacts.




(** ** The reductions *)

(** The depth of the pairwise summation never exceeds the length of the
    array: with that much fuel or more, the sum is the same. *)
Lemma pairwise_sum_fuel_enough (fuel1 fuel2 : nat) (l : list float) :
  (length l <= fuel1)%nat -> (length l <= fuel2)%nat ->
  np.pairwise_sum_fuel fuel1 l = np.pairwise_sum_fuel fuel2 l.
Proof.
  revert fuel2 l. induction fuel1 as [| fuel1 IH]; intros fuel2 l H1 H2.
  - destruct l; [| simpl in H1; lia]. destruct fuel2; reflexivity.
  - destruct fuel2 as [| fuel2].
    { destruct l; [reflexivity | simpl in H2; lia]. }
    cbn [np.pairwise_sum_fuel].
    destruct (length l <=? np.PW_BLOCKSIZE)%nat eqn:Hn; [reflexivity |].
    apply Nat.leb_gt in Hn. unfold np.PW_BLOCKSIZE in Hn.
    set (n := length l) in *. set (h := (n / 2)%nat).
    assert (h <= n / 2)%nat as Hh by reflexivity.
    assert (2 * (n / 2) <= n)%nat as Hdiv
      by (apply Nat.Div0.mul_div_le).
    assert (n < 2 * (n / 2) + 2)%nat as Hdiv'.
    { pose proof (Nat.div_mod_eq n 2) as Hdm.
      pose proof (Nat.mod_upper_bound n 2). lia. }
    assert (h mod 8 < 8)%nat as Hmod by (apply Nat.mod_upper_bound; lia).
    assert (h mod 8 <= h)%nat as Hmod' by (apply Nat.Div0.mod_le).
    f_equal; apply IH; rewrite ?length_take, ?length_drop; fold n; lia.
Qed.








(** *** Sorting *)






(** The sums are numpy's: ten times 0.1 add up to 1.0, where their sum from
    left to right is 0.9999999999999999; 2^53 and eight times 1 add up to
    2^53 + 8, where their sum from left to right stays 2^53. *)
Example sum_of_ten_tenths :
  np.sum (np.array (replicate 10 MoreExamples.tenth)) = 1%float /\
  np.sequential_sum 0 (replicate 10 MoreExamples.tenth) <> 1%float.
Proof. vm_compute. split; [reflexivity | discriminate]. Qed.

Example sum_of_long_values :
  np.sum (np.array MoreExamples.long_values) = 9007199254741000%float /\
  np.sequential_sum 0 MoreExamples.long_values = 9007199254740992%float.
Proof. vm_compute. split; reflexivity. Qed.

(** ** The standard deviation *)



(** ** The grouped analysis *)



(** * Further properties of the handlers *)

(** ** The forecast handler: every outcome *)

(** X1: the only HTTP errors the forecast handler raises are the 400, raised
    exactly when the request has fewer than ten values and always with the one
    detail, and the 500, raised only on a request with at least ten values one
    of whose library calls raised an instance [e] of [Exception], with the
    detail ["Error in ARIMA model: " + str(e)]. *)
Theorem forecast_arima_http_errors {Model Results W : Type}
    (lib : Library Model Results W) (request : ArimaRequest) (w : W) :
  let r := run lib (forecast_arima request) w in
  (forall status_code detail,
     result r = inl (HTTPException status_code detail) ->
     status_code = 400 /\
     detail = "At least 10 values are required for ARIMA." /\
     (length (values request) < 10)%nat
     \/
     status_code = 500 /\
     (10 <= length (values request))%nat /\
     exists e w', try_raises lib request w e w' /\
       isinstance_Exception e = true /\
       detail = "Error in ARIMA model: " +:+ str e) /\
  ((length (values request) < 10)%nat <->
   exists detail, result r = inl (HTTPException 400 detail)).
Proof.
  intros r.
  destruct (decide (length (values request) < 10)%nat) as [Hlt | Hge].
  - assert (result r
            = inl (HTTPException 400 "At least 10 values are required for ARIMA."))
      as Hr.
    { subst r. unfold forecast_arima.
      destruct (decide (length (values request) < 10)%nat); [reflexivity | lia]. }
    split.
    + intros sc d. rewrite Hr. intros [= <- <-]. left. auto.
    + split; [eauto | auto].
  - assert (10 <= length (values request))%nat as Hlen by lia.
    assert (forall sc d, result r = inl (HTTPException sc d) ->
              sc = 500 /\
              exists e w', try_raises lib request w e w' /\
                isinstance_Exception e = true /\
                d = "Error in ARIMA model: " +:+ str e) as H500.
    { intros sc d. subst r. rewrite (forecast_arima_run lib request w Hlen).
      simpl.
      destruct (lib (ARIMA _ _) w) as [[e | model] w1] eqn:H1; simpl in *.
      { unfold excepted. destruct (isinstance_Exception e) eqn:He;
          intros [= <- <-]. split; [reflexivity |].
        exists e, w1. split; [apply ARIMA_raises; exact H1 | auto]. }
      destruct (lib (ARIMA_fit model) w1) as [[e | model_fit] w2] eqn:H2;
        simpl in *.
      { unfold excepted. destruct (isinstance_Exception e) eqn:He;
          intros [= <- <-]. split; [reflexivity |].
        exists e, w2. split; [eapply fit_raises; eassumption | auto]. }
      destruct (lib (ARIMAResults_forecast _ _) w2) as [[e | xs] w3] eqn:H3;
        simpl in *; [| discriminate].
      unfold excepted. destruct (isinstance_Exception e) eqn:He;
        intros [= <- <-]. split; [reflexivity |].
      exists e, w3. split; [eapply forecast_raises; eassumption | auto]. }
    split.
    + intros sc d Hr. right. destruct (H500 sc d Hr) as [-> Hex]. auto.
    + split; [lia |]. intros [d Hd]. destruct (H500 400 d Hd) as [[=] _].
Qed.

(** X2: the forecast handler returns a response exactly when the request has
    at least ten values and [ARIMA], [fit] and [forecast] return one after
    the other, each from the state the one before left; the response then
    carries the list [forecast] returned, as it is, and the order of the
    request, and three calls were made. *)
Theorem forecast_arima_returns_iff {Model Results W : Type}
    (lib : Library Model Results W) (request : ArimaRequest) (w : W)
    (resp : ArimaForecast) (w' : W) :
  let r := run lib (forecast_arima request) w in
  result r = inr resp /\ world r = w' <->
  (10 <= length (values request))%nat /\
  exists model w1 model_fit w2,
    lib (ARIMA (values request) (order request)) w = (inr model, w1) /\
    lib (ARIMA_fit model) w1 = (inr model_fit, w2) /\
    lib (ARIMAResults_forecast model_fit (steps request)) w2
      = (inr (forecast resp), w') /\
    model_order resp = order request /\
    calls r = [ ARIMA (values request) (order request); ARIMA_fit model;
                ARIMAResults_forecast model_fit (steps request) ].
Proof.
  intros r. split.
  - intros [Hres Hw].
    destruct (forecast_arima_success lib request w resp Hres) as [Hlen _].
    split; [exact Hlen |]. revert Hres Hw. subst r.
    rewrite (forecast_arima_run lib request w Hlen). simpl.
    destruct (lib (ARIMA _ _) w) as [[e | model] w1]; simpl in *;
      [discriminate |].
    destruct (lib (ARIMA_fit model) w1) as [[e | model_fit] w2] eqn:H2;
      simpl in *; [discriminate |].
    destruct (lib (ARIMAResults_forecast _ _) w2) as [[e | xs] w3] eqn:H3;
      simpl in *; [discriminate |].
    intros [= <-] <-. exists model, w1, model_fit, w2. auto.
  - intros (Hlen & model & w1 & model_fit & w2 & H1 & H2 & H3 & Hmo & _).
    subst r. rewrite (forecast_arima_run lib request w Hlen). simpl.
    rewrite H1. simpl in *. rewrite H2. simpl in *. rewrite H3. simpl.
    destruct resp as [xs mo]. simpl in *. subst mo. auto.
Qed.

(** X3: an exception of a library call that is not an instance of
    [Exception] is not turned into a 500: it leaves the handler as it is,
    from the state the raising call left. *)
Theorem forecast_arima_not_Exception {Model Results W : Type}
    (lib : Library Model Results W) (request : ArimaRequest) (w : W)
    (e : Raised) (w' : W) :
  (10 <= length (values request))%nat ->
  try_raises lib request w e w' ->
  isinstance_Exception e = false ->
  result (run lib (forecast_arima request) w) = inl (Unhandled e) /\
  world (run lib (forecast_arima request) w) = w'.
Proof.
  intros Hlen Hraises He.
  destruct (forecast_arima_excepted lib request w e w' Hlen Hraises)
    as [Hres Hw].
  unfold excepted in Hres. rewrite He in Hres. auto.
Qed.

Lemma forecast_arima_not_Exception_witness :
  result (run interrupted.lib (forecast_arima Examples.request) 0%nat)
    = inl (Unhandled interrupted.KeyboardInterrupt) /\
  world (run interrupted.lib (forecast_arima Examples.request) 0%nat) = 2%nat.
Proof.
  apply (forecast_arima_not_Exception interrupted.lib Examples.request 0%nat
           interrupted.KeyboardInterrupt 2%nat).
  - simpl. lia.
  - apply (fit_raises interrupted.lib Examples.request 0%nat
             Examples.series 1%nat); reflexivity.
  - reflexivity.
Defined.

(** X4: the forecast handler calls the library at most three times and in
    one order: nothing on a short request; otherwise [ARIMA] on the values
    and the order of the request, then [fit] on the model [ARIMA] returned,
    then [forecast] on the results [fit] returned with the steps of the
    request; after a call that raised no other call is made. *)
Theorem forecast_arima_calls {Model Results W : Type}
    (lib : Library Model Results W) (request : ArimaRequest) (w : W) :
  let cs := calls (run lib (forecast_arima request) w) in
  let c1 := ARIMA (values request) (order request) in
  ((length (values request) < 10)%nat /\ cs = []) \/
  ((10 <= length (values request))%nat /\
   ((exists e w1, lib c1 w = (inl e, w1) /\ cs = [c1]) \/
    (exists model w1 e w2,
       lib c1 w = (inr model, w1) /\
       lib (ARIMA_fit model) w1 = (inl e, w2) /\
       cs = [c1; ARIMA_fit model]) \/
    (exists model w1 model_fit w2,
       lib c1 w = (inr model, w1) /\
       lib (ARIMA_fit model) w1 = (inr model_fit, w2) /\
       cs = [c1; ARIMA_fit model;
             ARIMAResults_forecast model_fit (steps request)]))).
Proof.
  intros cs c1.
  destruct (decide (length (values request) < 10)%nat) as [Hlt | Hge].
  - left. split; [exact Hlt |]. subst cs. unfold forecast_arima.
    destruct (decide (length (values request) < 10)%nat); [reflexivity | lia].
  - right. assert (10 <= length (values request))%nat as Hlen by lia.
    split; [exact Hlen |]. subst cs c1.
    rewrite (forecast_arima_run lib request w Hlen). simpl.
    destruct (lib (ARIMA _ _) w) as [[e | model] w1]; simpl in *.
    { left. eauto. }
    right.
    destruct (lib (ARIMA_fit model) w1) as [[e | model_fit] w2] eqn:H2;
      simpl in *.
    { left. exists model, w1, e, w2. auto. }
    right. exists model, w1, model_fit, w2.
    destruct (lib (ARIMAResults_forecast _ _) w2) as [[e | xs] w3]; auto.
Qed.

(** ** The grouped analysis: order, independence *)

(** A category occurs in the frame exactly when some item is selected for
    it. *)
Lemma elem_of_categories (items : list DataItem.t) (c : string) :
  c ∈ DataItem.category <$> items <->
  filter (fun item => DataItem.category item = c) items <> [].
Proof.
  rewrite list_elem_of_fmap. split.
  - intros (item & -> & Hin) Hnil.
    assert (item ∈ filter (fun i => DataItem.category i = DataItem.category item)
                     items) as Hf by (apply list_elem_of_filter; auto).
    rewrite Hnil in Hf. apply elem_of_nil in Hf. exact Hf.
  - intros Hne.
    destruct (filter (fun item => DataItem.category item = c) items)
      as [| item l] eqn:Hf; [contradiction |].
    assert (item ∈ filter (fun item => DataItem.category item = c) items) as Hin
      by (rewrite Hf; apply elem_of_cons; auto).
    apply list_elem_of_filter in Hin as [Hc Hin]. eauto.
Qed.

(** The entry of a category, by the items selected for it. *)
Lemma analyze_data_entry (items : list DataItem.t) (a : Analysis) (c : string) :
  analyze_data items = inr a ->
  analysis a !! c
    = match filter (fun item => DataItem.category item = c) items with
      | [] => None
      | g => Some (category_stats (np.Series (DataItem.value <$> g)))
      end.
Proof.
  intros Ha. rewrite (analyze_data_lookup items a c Ha), category_data_values.
  destruct (decide (c ∈ DataItem.category <$> items)) as [Hin | Hnin].
  - apply elem_of_categories in Hin.
    destruct (filter _ items); [contradiction | reflexivity].
  - rewrite elem_of_categories in Hnin.
    destruct (filter _ items) as [| item l]; [reflexivity |].
    exfalso. apply Hnin. discriminate.
Qed.

(** X6: the keys of the analysis and the count of every category do not
    depend on the order of the items: a reordered request is analysed too,
    into the same categories with the same counts. *)
Theorem analyze_data_permutation (items items' : list DataItem.t)
    (a : Analysis) :
  items ≡ₚ items' ->
  analyze_data items = inr a ->
  exists a', analyze_data items' = inr a' /\
    dom (analysis a') = dom (analysis a) /\
    forall c, CategoryStats.count <$> analysis a' !! c
              = CategoryStats.count <$> analysis a !! c.
Proof.
  intros Hperm Ha.
  destruct (analyze_data items') as [e | a'] eqn:Ha'.
  { destruct items' as [| item' items'']; [| discriminate].
    apply Permutation_nil_r in Hperm. subst items. discriminate. }
  exists a'. split; [reflexivity |]. split.
  - rewrite (analyze_data_dom _ _ Ha), (analyze_data_dom _ _ Ha').
    apply list_to_set_perm_L, fmap_Permutation. symmetry. exact Hperm.
  - intros c.
    rewrite (analyze_data_entry _ _ c Ha), (analyze_data_entry _ _ c Ha').
    assert (filter (fun item => DataItem.category item = c) items
            ≡ₚ filter (fun item => DataItem.category item = c) items') as Hf
      by (apply filter_Permutation; exact Hperm).
    apply Permutation_length in Hf.
    destruct (filter _ items) as [| i l], (filter _ items') as [| i' l'];
      try discriminate; [reflexivity |].
    simpl. unfold np.len. simpl. rewrite !length_fmap.
    simpl in Hf. do 2 f_equal. lia.
Qed.

Lemma analyze_data_permutation_witness :
  exists a', analyze_data MoreExamples.items_reordered = inr a' /\
    dom (analysis a')
      = dom (analysis (MoreExamples.analysis_of StatsExamples.items)) /\
    forall c, CategoryStats.count <$> analysis a' !! c
              = CategoryStats.count <$>
                  analysis (MoreExamples.analysis_of StatsExamples.items) !! c.
Proof.
  apply (analyze_data_permutation StatsExamples.items
           MoreExamples.items_reordered).
  - unfold StatsExamples.items, MoreExamples.items_reordered.
    apply Permutation_cons_app with (l1 := [_]) (l2 := [_]).
    apply Permutation_cons_app with (l1 := [_]) (l2 := []).
    reflexivity.
  - reflexivity.
Defined.

(** X7: the entry of a category depends on the items of that category alone:
    two requests that agree on the items of a category, in their order, have
    the same entry for it (or both none), whatever their other items. *)
Theorem analyze_data_entry_independent (items1 items2 : list DataItem.t)
    (a1 a2 : Analysis) (c : string) :
  analyze_data items1 = inr a1 ->
  analyze_data items2 = inr a2 ->
  filter (fun item => DataItem.category item = c) items1
    = filter (fun item => DataItem.category item = c) items2 ->
  analysis a1 !! c = analysis a2 !! c.
Proof.
  intros Ha1 Ha2 Hf.
  rewrite (analyze_data_entry _ _ c Ha1), (analyze_data_entry _ _ c Ha2), Hf.
  reflexivity.
Qed.

Lemma analyze_data_entry_independent_witness :
  analysis (MoreExamples.analysis_of StatsExamples.items) !! "A"
  = analysis (MoreExamples.analysis_of MoreExamples.items_other_B) !! "A".
Proof.
  apply (analyze_data_entry_independent StatsExamples.items
           MoreExamples.items_other_B); reflexivity.
Defined.

(** X8: when all the items of a request are of one category, the analysis
    has that category as its only key, with the statistics of all the values
    of the request, in their order. *)
Theorem analyze_data_single_category (c : string) (item : DataItem.t)
    (items : list DataItem.t) :
  Forall (fun i => DataItem.category i = c) (item :: items) ->
  analyze_data (item :: items)
    = inr {| analysis :=
               {[ c := category_stats
                         (np.Series (DataItem.value <$> item :: items)) ]} |}.
Proof.
  intros Hall.
  destruct (analyze_data (item :: items)) as [e | [results]] eqn:Ha;
    [discriminate |].
  do 2 f_equal. apply map_eq. intros k.
  pose proof (analyze_data_entry _ _ k Ha) as Hk. cbn [analysis] in Hk.
  rewrite Hk. destruct (decide (k = c)) as [-> | Hne].
  - rewrite lookup_singleton_eq.
    assert (filter (fun i => DataItem.category i = c) (item :: items)
            = item :: items) as ->.
    { clear -Hall. induction Hall as [| i l Hi _ IH]; [reflexivity |].
      rewrite filter_cons_True by exact Hi. rewrite IH. reflexivity. }
    reflexivity.
  - rewrite lookup_singleton_ne by auto.
    assert (filter (fun i => DataItem.category i = k) (item :: items) = [])
      as ->; [| reflexivity].
    clear -Hall Hne. induction Hall as [| i l Hi _ IH]; [reflexivity |].
    rewrite filter_cons_False by congruence. exact IH.
Qed.

Lemma analyze_data_single_category_witness :
  analyze_data MoreExamples.items_A
    = inr {| analysis :=
               {[ "A" := category_stats (np.Series [10; 20]%float) ]} |}.
Proof.
  apply (analyze_data_single_category "A" (DataItem.mk "item1" 10 "A")
           [DataItem.mk "item2" 20 "A"]).
  repeat constructor.
Defined.

(** ** The grouped analysis: every item is counted once *)

Lemma sum_indicator (ks : list string) (k : string) :
  NoDup ks ->
  sum_list_with (fun c => if decide (k = c) then 1 else 0)%nat ks
    = (if decide (k ∈ ks) then 1 else 0)%nat.
Proof.
  induction 1 as [| c ks Hc _ IH]; cbn [sum_list_with].
  - rewrite decide_False by apply not_elem_of_nil. reflexivity.
  - rewrite IH. destruct (decide (k = c)) as [-> | Hne].
    + rewrite (decide_False (P := c ∈ ks)) by exact Hc.
      rewrite decide_True by (apply elem_of_cons; auto). reflexivity.
    + destruct (decide (k ∈ ks)) as [Hin | Hnin].
      * rewrite decide_True by (apply elem_of_cons; auto). reflexivity.
      * rewrite decide_False by (rewrite elem_of_cons; tauto). reflexivity.
Qed.

(** Over distinct keys that cover the categories of the items, the sizes of
    the selections add up to the number of items. *)
Lemma sum_selections (ks : list string) (items : list DataItem.t) :
  NoDup ks ->
  (forall item, item ∈ items -> DataItem.category item ∈ ks) ->
  sum_list_with
    (fun c => length (filter (fun item => DataItem.category item = c) items)) ks
    = length items.
Proof.
  intros Hnd. induction items as [| item items IH]; intros Hcov.
  - clear. induction ks as [| c ks IHks]; simpl; [reflexivity | exact IHks].
  - assert (sum_list_with
              (fun c => length (filter (fun i => DataItem.category i = c)
                                       (item :: items))) ks
            = (sum_list_with
                 (fun c => if decide (DataItem.category item = c) then 1 else 0) ks
               + sum_list_with
                   (fun c => length (filter (fun i => DataItem.category i = c)
                                            items)) ks)%nat) as ->.
    { clear. induction ks as [| c ks IHks]; simpl; [reflexivity |].
      rewrite IHks, filter_cons.
      destruct (decide (DataItem.category item = c)); simpl; lia. }
    rewrite (sum_indicator ks _ Hnd), IH.
    + rewrite decide_True by (apply Hcov, elem_of_cons; auto). reflexivity.
    + intros i Hi. apply Hcov, elem_of_cons. auto.
Qed.

(** The counts of the entries written by the loop add up. *)
Lemma total_count_foldl_insert (f : string -> CategoryStats.t)
    (ks : list string) (m : gmap string CategoryStats.t) :
  NoDup ks ->
  (forall k, k ∈ ks -> m !! k = None) ->
  total_count (foldl (fun results k => <[k := f k]> results) m ks)
    = foldr (fun k n => CategoryStats.count (f k) + n) 0 ks + total_count m.
Proof.
  intros Hnd. revert m. induction Hnd as [| k ks Hk _ IH]; intros m Hm; simpl.
  - reflexivity.
  - rewrite IH.
    + unfold total_count at 1. rewrite map_fold_insert_L.
      * fold (total_count m). lia.
      * intros. lia.
      * apply Hm, elem_of_cons. auto.
    + intros k' Hk'. rewrite lookup_insert_ne by (intros ->; contradiction).
      apply Hm, elem_of_cons. auto.
Qed.

Lemma length_unique_from (seen l : list string) :
  (length (pd.unique_from seen l) <= length l)%nat.
Proof.
  revert seen. induction l as [| x l IH]; intros seen; simpl; [lia |].
  destruct (decide (x ∈ seen)); simpl.
  - specialize (IH seen). lia.
  - specialize (IH (x :: seen)). lia.
Qed.

(** X9: the analysis counts every item once: the counts of its entries add
    up to the number of items of the request, every entry counts at least one
    item, and there are at most as many entries as items. *)
Theorem analyze_data_counts (item : DataItem.t) (items : list DataItem.t) :
  let df := item :: items in
  exists results : gmap string CategoryStats.t,
    analyze_data df = inr {| analysis := results |} /\
    total_count results = Z.of_nat (length df) /\
    (forall c st, results !! c = Some st ->
       1 <= CategoryStats.count st <= Z.of_nat (length df)) /\
    (size results <= length df)%nat.
Proof.
  intros df.
  destruct (analyze_data df) as [e | [results]] eqn:Ha; [discriminate |].
  exists results. split; [reflexivity |]. split; [| split].
  - assert (results
            = foldl (fun results k =>
                       <[k := category_stats (category_data df k)]> results)
                    ∅ (pd.unique (DataItem.category <$> df))) as ->
      by (injection Ha as <-; reflexivity).
    rewrite total_count_foldl_insert
      by (try apply NoDup_unique_from; intros; apply lookup_empty).
    unfold total_count at 1. rewrite map_fold_empty, Z.add_0_r.
    rewrite <- (sum_selections (pd.unique (DataItem.category <$> df)) df).
    + generalize (pd.unique (DataItem.category <$> df)) as ks.
      induction ks as [| k ks IHks]; cbn [foldr sum_list_with];
        [reflexivity |].
      rewrite IHks, category_data_values.
      unfold category_stats, np.len. cbn [CategoryStats.count np.tolist].
      rewrite length_fmap. lia.
    + apply NoDup_unique_from.
    + intros i Hi. apply elem_of_unique, list_elem_of_fmap. eauto.
  - intros c st Hst.
    pose proof (analyze_data_entry df _ c Ha) as Hc. cbn [analysis] in Hc.
    rewrite Hst in Hc.
    pose proof (length_filter (fun i => DataItem.category i = c) df) as Hle.
    destruct (filter (fun i => DataItem.category i = c) df) as [| i g];
      [discriminate |].
    injection Hc as ->. unfold category_stats, np.len. cbn.
    rewrite length_fmap. simpl in Hle. lia.
  - pose proof (analyze_data_size df _ Ha) as Hsize. cbn [analysis] in Hsize.
    rewrite Hsize. etransitivity; [apply length_unique_from |].
    rewrite length_fmap. reflexivity.
Qed.

(** ** The ungrouped statistics on the empty list *)

(** X10: on the empty list the ungrouped statistics raise nothing: the count
    is 0, and the mean, the median and the std are [nan]; the count is 0 on
    no other input. *)
Theorem calculate_stats_empty :
  calculate_stats []
    = {| DataStats.mean := PrimFloat.nan; DataStats.median := PrimFloat.nan;
         DataStats.std := PrimFloat.nan; DataStats.count := 0 |} /\
  (forall values, DataStats.count (calculate_stats values) = 0 <-> values = []).
Proof.
  split; [vm_compute; reflexivity |].
  intros values. unfold calculate_stats, np.len. simpl.
  destruct values; simpl; split; (reflexivity || discriminate || lia).
Qed.

(** ** The grouped analysis never reads the names *)

Lemma category_data_rename (rename : DataItem.t -> string)
    (items : list DataItem.t) (c : string) :
  category_data
    ((fun i => DataItem.mk (rename i) (DataItem.value i) (DataItem.category i))
       <$> items) c
  = category_data items c.
Proof.
  unfold category_data. f_equal.
  induction items as [| i items IH]; [reflexivity |]. cbn.
  destruct (bool_decide (DataItem.category i = c)); cbn;
    [f_equal |]; exact IH.
Qed.

(** X12: the names of the items play no part in the analysis: a request
    whose items are renamed, in any way, has the same result. *)
Theorem analyze_data_ignores_names (rename : DataItem.t -> string)
    (items : list DataItem.t) :
  analyze_data
    ((fun i => DataItem.mk (rename i) (DataItem.value i) (DataItem.category i))
       <$> items)
  = analyze_data items.
Proof.
  set (renamed := _ <$> items).
  assert (DataItem.category <$> renamed = DataItem.category <$> items) as Hcat.
  { subst renamed. rewrite <- list_fmap_compose. reflexivity. }
  destruct (analyze_data items) as [e | [results]] eqn:Ha.
  { destruct items; [injection Ha as <-; reflexivity | discriminate]. }
  destruct (analyze_data renamed) as [e' | [results']] eqn:Ha'.
  { destruct items; discriminate. }
  do 2 f_equal. apply map_eq. intros c.
  pose proof (analyze_data_lookup _ _ c Ha) as H1.
  pose proof (analyze_data_lookup _ _ c Ha') as H2.
  cbn [analysis] in H1, H2. rewrite H1, H2, Hcat.
  subst renamed. rewrite category_data_rename. reflexivity.
Qed.
